(** * Session helpers, global lock and form validators of Airflow

    A shallow embedding of [airflow/utils/session.py] and of the JSON
    validator of [airflow/www/validators.py].

    Python code that talks to a database session is embedded in a small
    monad [M]: a computation reads the collaborators it runs against (the
    [World]: the session factory and the behaviour of the SQLAlchemy
    session) and the events that happened so far, and yields the events it
    adds itself together with its outcome, a returned value or a raised
    exception.  Events are only ever appended, so "what was called, and in
    which order" is read off the emitted list. *)

From stdpp Require Import base strings gmap list pretty.

Local Open Scope string_scope.
Local Open Scope list_scope.

(** * Python values and exceptions *)

(** The built-in exception hierarchy, as far as the code tells classes
    apart: [except Exception] of [create_session] catches every class
    below [Exception] and none of the three that derive from
    [BaseException] directly. *)
Inductive exn_class :=
  | ValueError
  | TypeError
  | AttributeError
  | KeyError
  | IndexError
  | RuntimeError
  | JSONDecodeError        (* json.JSONDecodeError, a ValueError *)
  | ValidationError        (* wtforms.validators.ValidationError, a ValueError *)
  | UserException (name : string)   (* any other subclass of Exception *)
  | KeyboardInterrupt
  | SystemExit
  | GeneratorExit.

(** [isinstance(e, Exception)] *)
Definition is_Exception (c : exn_class) : bool :=
  match c with
  | KeyboardInterrupt | SystemExit | GeneratorExit => false
  | _ => true
  end.

(** An exception object: its class and [str(e)].  Tracebacks and the
    [__context__] and [__cause__] links are left out; nothing in these
    modules reads them. *)
Record exn := Exn { exn_cls : exn_class; exn_msg : string }.

(** [dialect.name] and [dialect.server_version_info] of a connection. *)
Record Dialect := {
  name : string;
  server_version_info : list Z
}.

(** A [settings.SASession] object: its identity and the dialect of the
    connection it hands out. *)
Record SASession := {
  session_key : nat;
  session_dialect : Dialect
}.

Inductive pyval :=
  | PNone
  | PInt (z : Z)
  | PStr (s : string)
  | PSession (s : SASession).

(** [type(v).__name__] *)
Definition type_name (v : pyval) : string :=
  match v with
  | PNone => "NoneType"
  | PInt _ => "int"
  | PStr _ => "str"
  | PSession _ => "Session"
  end.

(** [format(v)], what an f-string field [{v}] expands to.  A session
    object prints with its address; its key stands for the address. *)
Definition py_format (v : pyval) : string :=
  match v with
  | PNone => "None"
  | PInt z => pretty z
  | PStr s => s
  | PSession s => "<Session object at " +:+ pretty (session_key s) +:+ ">"
  end.

(** * Events, the world, and the monad *)

Inductive event :=
  | EvSession (s : SASession)                 (* settings.Session() gave s *)
  | EvCommit (s : SASession)                  (* s.commit() *)
  | EvRollback (s : SASession)                (* s.rollback() *)
  | EvClose (s : SASession)                   (* s.close() *)
  | EvExecute (s : SASession) (stmt : string) (* s.connection().execute(stmt) *)
  | EvAdd (s : SASession) (x : pyval)         (* s.add(x) *)
  | EvFlush (s : SASession)                   (* s.flush() *)
  | EvOther (what : string).                  (* any other effect of caller code *)

(** The collaborators outside these modules.  Each may depend on what
    happened before; [None] is a normal return, [Some e] raises [e]. *)
Record World := {
  Session_factory : list event -> SASession;
  commit_raises : SASession -> list event -> option exn;
  rollback_raises : SASession -> list event -> option exn;
  close_raises : SASession -> list event -> option exn;
  flush_raises : SASession -> list event -> option exn;
  execute_result : SASession -> string -> list event -> exn + pyval
}.

Inductive outcome (A : Type) :=
  | Returned (v : A)
  | Raised (e : exn).
Arguments Returned {A} v.
Arguments Raised {A} e.

Definition M (A : Type) : Type := World -> list event -> list event * outcome A.

Definition ret {A} (v : A) : M A := fun _ _ => ([], Returned v).

Definition raise {A} (e : exn) : M A := fun _ _ => ([], Raised e).

Definition bind {A B} (m : M A) (k : A -> M B) : M B :=
  fun w h =>
    match m w h with
    | (t1, Returned v) =>
        let '(t2, r) := k v w (h ++ t1) in (t1 ++ t2, r)
    | (t1, Raised e) => (t1, Raised e)
    end.

#[global] Instance M_ret : MRet M := @ret.
#[global] Instance M_bind : MBind M := fun A B k m => bind m k.

(** The events a computation adds, and how it ends. *)
Definition trace {A} (m : M A) (w : World) (h : list event) : list event := (m w h).1.
Definition result {A} (m : M A) (w : World) (h : list event) : outcome A := (m w h).2.

(** A method call on a collaborator: it is recorded, then it returns or
    raises as the world says. *)
Definition method_call (ev : event) (raises : World -> list event -> option exn) : M unit :=
  fun w h =>
    ([ev], match raises w h with
           | None => Returned tt
           | Some e => Raised e
           end).

(** [try: m  except Exception: handler], the handler receiving the caught
    exception so that a bare [raise] can re-raise it. *)
Definition try_except_Exception {A} (m : M A) (handler : exn -> M A) : M A :=
  fun w h =>
    match m w h with
    | (t1, Returned v) => (t1, Returned v)
    | (t1, Raised e) =>
        if is_Exception (exn_cls e)
        then let '(t2, r) := handler e w (h ++ t1) in (t1 ++ t2, r)
        else (t1, Raised e)
    end.

(** [try: m  finally: fin].  The clause runs on every way out; when it
    raises, its exception replaces whatever was pending. *)
Definition try_finally {A} (m : M A) (fin : M unit) : M A :=
  fun w h =>
    let '(t1, r1) := m w h in
    match fin w (h ++ t1) with
    | (t2, Returned _) => (t1 ++ t2, r1)
    | (t2, Raised e) => (t1 ++ t2, Raised e)
    end.

(** * airflow/utils/session.py *)

Definition Session : M SASession :=
  fun w h => let s := Session_factory w h in ([EvSession s], Returned s).

Definition commit (s : SASession) : M unit :=
  method_call (EvCommit s) (fun w => commit_raises w s).
Definition rollback (s : SASession) : M unit :=
  method_call (EvRollback s) (fun w => rollback_raises w s).
Definition close (s : SASession) : M unit :=
  method_call (EvClose s) (fun w => close_raises w s).
Definition flush (s : SASession) : M unit :=
  method_call (EvFlush s) (fun w => flush_raises w s).
Definition add (s : SASession) (x : pyval) : M unit :=
  method_call (EvAdd s x) (fun _ _ => None).

(** [with create_session() as session: block].

    [create_session] is a generator with one [yield], used through
    [contextlib.contextmanager]: the [with] statement runs the generator
    up to the [yield], then the block, and then resumes the generator at
    the [yield], normally when the block completed and by throwing the
    block's exception into it otherwise.  The embedding therefore puts the
    block where the [yield] is. *)
Definition create_session {A} (block : SASession -> M A) : M A :=
  session ← Session;
  try_finally
    (try_except_Exception
       (v ← block session;
        commit session;;
        mret v)
       (fun e =>
          rollback session;;
          raise e))
    (close session).

(** A Python function as [provide_session] sees it: [__qualname__], the
    names of [signature(func).parameters] in order, and what a call
    with positional arguments [args] and keyword arguments [kwargs] does. *)
Record pyfunc (R : Type) := {
  qualname : string;
  parameters : list string;
  call : list pyval -> gmap string pyval -> M R
}.
Arguments qualname {R} _.
Arguments parameters {R} _.
Arguments call {R} _ _ _.

(** [tuple(names).index(x)]: the first position of [x]; [None] stands for
    the [ValueError] of a missing element. *)
Fixpoint tuple_index (x : string) (names : list string) : option nat :=
  match names with
  | [] => None
  | y :: rest => if decide (y = x) then Some 0%nat else S <$> tuple_index x rest
  end.

Definition find_session_idx {R} (func : pyfunc R) : exn + nat :=
  match tuple_index "session" (parameters func) with
  | Some session_args_idx => inr session_args_idx
  | None =>
      inl (Exn ValueError
             ("Function " +:+ qualname func +:+ " has no `session` argument"))
  end.

(** The inner function of [provide_session]. *)
Definition wrapper {R} (func : pyfunc R) (session_args_idx : nat)
    (args : list pyval) (kwargs : gmap string pyval) : M R :=
  if bool_decide (is_Some (kwargs !! "session")) || (session_args_idx <? length args)%nat
  then call func args kwargs
  else create_session (fun session =>
         call func args (<["session" := PSession session]> kwargs)).

(** [provide_session(func)]: the index is looked up when the decorator
    runs, and the result is either its error or the wrapper, which
    [functools.wraps] gives the name and signature of [func]. *)
Definition provide_session {R} (func : pyfunc R) : exn + pyfunc R :=
  match find_session_idx func with
  | inl e => inl e
  | inr session_args_idx =>
      inr {| qualname := qualname func;
             parameters := parameters func;
             call := wrapper func session_args_idx |}
  end.

(** ** Binding the arguments of a call

    What CPython does on entry to a function whose parameters are all
    positional-or-keyword: positional arguments fill the parameters from
    the left, keywords are matched by name, and the remaining parameters
    take their defaults.  Errors are found in CPython's order: keywords
    first, then the number of positional arguments, then what is missing
    (among several wrong keywords CPython names the first of the call,
    a [gmap] the first of its own order). *)
Definition bad_keyword (fname : string) (names : list string) (nargs : nat)
    (kw : string * pyval) : option exn :=
  match tuple_index kw.1 names with
  | None =>
      Some (Exn TypeError
              (fname +:+ "() got an unexpected keyword argument '" +:+ kw.1 +:+ "'"))
  | Some i =>
      if (i <? nargs)%nat
      then Some (Exn TypeError
                   (fname +:+ "() got multiple values for argument '" +:+ kw.1 +:+ "'"))
      else None
  end.

Fixpoint first_error (checks : list (option exn)) : option exn :=
  match checks with
  | [] => None
  | Some e :: _ => Some e
  | None :: rest => first_error rest
  end.

(** The value of the parameter at position [i]. *)
Definition bound_value (args : list pyval) (kwargs : gmap string pyval)
    (i : nat) (p : string * option pyval) : option pyval :=
  match args !! i with
  | Some v => Some v
  | None =>
      match kwargs !! p.1 with
      | Some v => Some v
      | None => p.2
      end
  end.

(** ['a'], ['a' and 'b'], ['a', 'b', and 'c']: how CPython lists the
    names of missing arguments. *)
Fixpoint quoted_names_tail (names : list string) : string :=
  match names with
  | [] => ""
  | [a] => "and '" +:+ a +:+ "'"
  | a :: rest => "'" +:+ a +:+ "', " +:+ quoted_names_tail rest
  end.

Definition quoted_names (names : list string) : string :=
  match names with
  | [] => ""
  | [a] => "'" +:+ a +:+ "'"
  | [a; b] => "'" +:+ a +:+ "' and '" +:+ b +:+ "'"
  | _ => quoted_names_tail names
  end.

Definition too_many_positional (fname : string) (params : list (string * option pyval))
    (given : nat) : exn :=
  let required := length (filter (fun p => p.2 = None) params) in
  let total := length params in
  Exn TypeError
    (fname +:+ "() takes "
       +:+ (if (required <? total)%nat
            then "from " +:+ pretty required +:+ " to " +:+ pretty total
                   +:+ " positional arguments"
            else pretty total +:+ " positional argument"
                   +:+ (if decide (total = 1%nat) then "" else "s"))
       +:+ " but " +:+ pretty given
       +:+ (if decide (given = 1%nat) then " was" else " were") +:+ " given").

Definition missing_positional (fname : string) (missing : list string) : exn :=
  Exn TypeError
    (fname +:+ "() missing " +:+ pretty (length missing)
       +:+ " required positional argument"
       +:+ (if decide (length missing = 1%nat) then "" else "s")
       +:+ ": " +:+ quoted_names missing).

Definition bind_arguments (fname : string) (params : list (string * option pyval))
    (args : list pyval) (kwargs : gmap string pyval) : exn + gmap string pyval :=
  let names := params.*1 in
  match first_error (bad_keyword fname names (length args) <$> map_to_list kwargs) with
  | Some e => inl e
  | None =>
      if (length params <? length args)%nat
      then inl (too_many_positional fname params (length args))
      else
        let values := imap (fun i p => (p.1, bound_value args kwargs i p)) params in
        match (filter (fun nv => nv.2 = None) values).*1 with
        | [] => inr (list_to_map (omap (fun nv => pair nv.1 <$> nv.2) values))
        | missing => inl (missing_positional fname missing)
        end
  end.

(** ** The global lock *)

(** [a >= b] on tuples of integers: the first position where they differ
    decides, and without one the longer tuple is the greater. *)
Fixpoint tuple_ge (a b : list Z) : bool :=
  match a, b with
  | _, [] => true
  | [], _ :: _ => false
  | x :: a', y :: b' =>
      if decide (x = y) then tuple_ge a' b' else bool_decide (y < x)%Z
  end.

(** [a < b] on tuples of integers. *)
Fixpoint tuple_lt (a b : list Z) : bool :=
  match a, b with
  | _, [] => false
  | [], _ :: _ => true
  | x :: a', y :: b' =>
      if decide (x = y) then tuple_lt a' b' else bool_decide (x < y)%Z
  end.

(** [session.connection()].  On a session it hands out the connection,
    which the embedding identifies with the session that owns it; on
    anything else the attribute lookup fails. *)
Definition connection (session : pyval) : M SASession :=
  match session with
  | PSession s => mret s
  | v =>
      raise (Exn AttributeError
               ("'" +:+ type_name v +:+ "' object has no attribute 'connection'"))
  end.

(** [conn.execute(stmt)]: recorded, then the database answers with the
    scalar of the [select] or raises. *)
Definition execute (conn : SASession) (stmt : string) : M pyval :=
  fun w h =>
    ([EvExecute conn stmt],
     match execute_result w conn stmt h with
     | inl e => Raised e
     | inr v => Returned v
     end).

(** A context manager made by [contextlib.contextmanager] from a
    generator with a single [yield]: given the block of the [with]
    statement it is the whole statement, the block standing where the
    [yield] is. *)
Definition ctxmgr : Type := M pyval -> M pyval.

Definition PG_ADVISORY_LOCK (pg_lock_id : pyval) : string :=
  "select PG_ADVISORY_LOCK(" +:+ py_format pg_lock_id +:+ ");".
Definition PG_ADVISORY_UNLOCK (pg_lock_id : pyval) : string :=
  "select PG_ADVISORY_UNLOCK(" +:+ py_format pg_lock_id +:+ ");".
Definition GET_LOCK (lock_name mysql_lock_timeout : pyval) : string :=
  "select GET_LOCK('" +:+ py_format lock_name +:+ "',"
    +:+ py_format mysql_lock_timeout +:+ ");".
Definition RELEASE_LOCK (lock_name : pyval) : string :=
  "select RELEASE_LOCK('" +:+ py_format lock_name +:+ "');".

(** [if cond: session.connection().execute(stmt)] *)
Definition execute_if (cond : bool) (session : pyval) (stmt : string) : M unit :=
  if cond
  then conn ← connection session; execute conn stmt;; mret tt
  else mret tt.

(** The generator body of [create_global_lock]. *)
Definition create_global_lock_body
    (session pg_lock_id lock_name mysql_lock_timeout : pyval) : ctxmgr :=
  fun block =>
    conn ← connection session;
    let dialect := session_dialect conn in
    try_finally
      (execute_if (bool_decide (name dialect = "postgresql"))
         session (PG_ADVISORY_LOCK pg_lock_id);;
       execute_if (bool_decide (name dialect = "mysql")
                     && tuple_ge (server_version_info dialect) [5; 6]%Z)
         session (GET_LOCK lock_name mysql_lock_timeout);;
       (if bool_decide (name dialect = "mssql") then mret tt else mret tt);;
       block)
      (execute_if (bool_decide (name dialect = "postgresql"))
         session (PG_ADVISORY_UNLOCK pg_lock_id);;
       execute_if (bool_decide (name dialect = "mysql")
                     && tuple_ge (server_version_info dialect) [5; 6]%Z)
         session (RELEASE_LOCK lock_name);;
       (if bool_decide (name dialect = "mssql") then mret tt else mret tt)).

Definition create_global_lock_params : list (string * option pyval) :=
  [("session", Some PNone);
   ("pg_lock_id", Some (PInt 1));
   ("lock_name", Some (PStr "init"));
   ("mysql_lock_timeout", Some (PInt 1800))].

Definition argument (bound : gmap string pyval) (p : string) : pyval :=
  default PNone (bound !! p).

(** [contextlib.contextmanager(create_global_lock)]: a call binds the
    arguments and returns the manager; no line of the body runs before
    the [with] statement enters it. *)
Definition create_global_lock_manager : pyfunc ctxmgr :=
  {| qualname := "create_global_lock";
     parameters := create_global_lock_params.*1;
     call := fun args kwargs =>
       match bind_arguments "create_global_lock" create_global_lock_params args kwargs with
       | inl e => raise e
       | inr bound =>
           mret (create_global_lock_body
                   (argument bound "session") (argument bound "pg_lock_id")
                   (argument bound "lock_name") (argument bound "mysql_lock_timeout"))
       end |}.

(** The name a [def] under [@provide_session] is bound to.  When the
    decorator raises, the module does not load and no name is bound; the
    second branch only makes the function total, and it is not taken for
    a function that has the parameter. *)
Definition decorated {R} (func : pyfunc R) : pyfunc R :=
  match provide_session func with
  | inr wrapped => wrapped
  | inl _ => func
  end.

(** The module-level name [create_global_lock]. *)
Definition create_global_lock : pyfunc ctxmgr :=
  decorated create_global_lock_manager.

(** The statement [with f(...): block], the call passing [args] and
    [kwargs]. *)
Definition with_call (f : pyfunc ctxmgr) (args : list pyval)
    (kwargs : gmap string pyval) (block : M pyval) : M pyval :=
  manager ← call f args kwargs;
  manager block.

(** * airflow/www/validators.py *)

(** [bool(v)] *)
Definition truthy (v : pyval) : bool :=
  match v with
  | PNone => false
  | PInt z => negb (bool_decide (z = 0%Z))
  | PStr s => negb (bool_decide (s = ""))
  | PSession _ => true
  end.

(** A form field, as the validator uses it: [field.data] and
    [field.gettext]. *)
Record Field := {
  data : pyval;
  gettext : string -> string
}.

(** The validator object; [__init__] stores its one attribute. *)
Record ValidJson := { message : option string }.

Section Validators.

(** The decoder of the standard library's [json] module on a text:
    [None] when the document parses, [Some ex] when it raises [ex]. *)
Variable decode : string -> option exn.

(** [template.format(arg)] of [str], with one positional argument. *)
Variable str_format : string -> pyval -> exn + string.

(** [json.loads(v)]; only text is handed to the decoder (bytes are not
    among the values of the embedding). *)
Definition json_loads (v : pyval) : option exn :=
  match v with
  | PStr s => decode s
  | _ =>
      Some (Exn TypeError
              ("the JSON object must be str, bytes or bytearray, not " +:+ type_name v))
  end.

(** [self.message or f"JSON Validation Error: {ex}"] *)
Definition message_or_default (self : ValidJson) (ex : exn) : string :=
  match message self with
  | Some m => if bool_decide (m = "") then "JSON Validation Error: " +:+ exn_msg ex else m
  | None => "JSON Validation Error: " +:+ exn_msg ex
  end.

(** [ValidJson.__call__(self, form, field)]; the form is not used. *)
Definition ValidJson_call (self : ValidJson) (field : Field) : outcome unit :=
  if truthy (data field)
  then
    match json_loads (data field) with
    | None => Returned tt
    | Some ex =>
        match exn_cls ex with
        | JSONDecodeError =>
            match str_format (message_or_default self ex) (data field) with
            | inr text => Raised (Exn ValidationError (gettext field text))
            | inl e => Raised e
            end
        | _ => Raised ex
        end
    end
  else Returned tt.

End Validators.

(** ** [GreaterEqualThan] and [ValidKey] *)

(** [a < b] on the values of the embedding: integers by value, texts by
    code points, and a [TypeError] for every other pair of types. *)
Definition py_lt (a b : pyval) : exn + bool :=
  match a, b with
  | PInt x, PInt y => inr (bool_decide (x < y)%Z)
  | PStr x, PStr y => inr (String.ltb x y)
  | _, _ =>
      inl (Exn TypeError
             ("'<' not supported between instances of '" +:+ type_name a
                +:+ "' and '" +:+ type_name b +:+ "'"))
  end.

(** A field found in a form by name: the field, and [label.text] when
    the field has a [label] attribute. *)
Record FormField := {
  form_field : Field;
  label_text : option string
}.

(** The validator object of [GreaterEqualThan]; [EqualTo.__init__] stores
    its two attributes. *)
Record GreaterEqualThan := {
  fieldname : string;
  message_template : option string
}.

(** [hasattr(other, "label") and other.label.text or self.fieldname] *)
Definition other_label (self : GreaterEqualThan) (other : FormField) : string :=
  match label_text other with
  | Some text => if bool_decide (text = "") then fieldname self else text
  | None => fieldname self
  end.

(** The validator object of [ValidKey]. *)
Record ValidKey := { max_length : Z }.

Section FieldValidators.

(** [template % mapping] of [str]. *)
Variable percent_format : string -> gmap string string -> exn + string.

(** [helpers.validate_key(k, max_length)] of [airflow.utils.helpers]:
    [None] when it returns, [Some e] when it raises [e]. *)
Variable validate_key : pyval -> Z -> option exn.

(** [GreaterEqualThan.__call__(self, form, field)]; [form[name]] raises
    [KeyError] for a name the form does not have. *)
Definition GreaterEqualThan_call (self : GreaterEqualThan)
    (form : gmap string FormField) (field : Field) : outcome unit :=
  match form !! fieldname self with
  | None =>
      Raised (Exn ValidationError
                (gettext field ("Invalid field name '" +:+ fieldname self +:+ "'.")))
  | Some other =>
      match data field, data (form_field other) with
      | PNone, _ | _, PNone => Returned tt
      | mine, theirs =>
          match py_lt mine theirs with
          | inl e => Raised e
          | inr false => Returned tt
          | inr true =>
              let message_args : gmap string string :=
                {[ "other_label" := other_label self other;
                   "other_name" := fieldname self ]} in
              match message_template self with
              | None =>
                  Raised (Exn ValidationError
                            (gettext field
                               ("Field must be greater than or equal to "
                                  +:+ other_label self other +:+ ".")))
              | Some message =>
                  match percent_format message message_args with
                  | inr text => Raised (Exn ValidationError text)
                  | inl e => Raised e
                  end
              end
          end
      end
  end.

(** [ValidKey.__call__(self, form, field)]; the form is not used. *)
Definition ValidKey_call (self : ValidKey) (field : Field) : outcome unit :=
  if truthy (data field)
  then
    match validate_key (data field) (max_length self) with
    | None => Returned tt
    | Some e =>
        if is_Exception (exn_cls e)
        then Raised (Exn ValidationError (exn_msg e))
        else Raised e
    end
  else Returned tt.

End FieldValidators.

(** * Sample collaborators

    Concrete sessions, worlds and blocks on which the statements below are
    evaluated. *)

Definition postgresql : Dialect :=
  {| name := "postgresql"; server_version_info := [12; 3]%Z |}.
Definition mysql_8_0 : Dialect :=
  {| name := "mysql"; server_version_info := [8; 0; 21]%Z |}.
Definition mysql_5_5 : Dialect :=
  {| name := "mysql"; server_version_info := [5; 5; 62]%Z |}.
Definition mssql : Dialect :=
  {| name := "mssql"; server_version_info := [15; 0]%Z |}.

Definition session_on (d : Dialect) : SASession :=
  {| session_key := 0; session_dialect := d |}.

(** A database on dialect [d] where nothing fails and every statement
    answers 1. *)
Definition quiet_world (d : Dialect) : World :=
  {| Session_factory := fun _ => session_on d;
     commit_raises := fun _ _ => None;
     rollback_raises := fun _ _ => None;
     close_raises := fun _ _ => None;
     flush_raises := fun _ _ => None;
     execute_result := fun _ _ _ => inr (PInt 1) |}.

(** As [quiet_world], but the connection is lost by the time of a
    rollback. *)
Definition lost_connection_world (d : Dialect) : World :=
  {| Session_factory := fun _ => session_on d;
     commit_raises := fun _ _ => None;
     rollback_raises := fun _ _ =>
       Some (Exn (UserException "OperationalError") "server closed the connection");
     close_raises := fun _ _ => None;
     flush_raises := fun _ _ => None;
     execute_result := fun _ _ _ => inr (PInt 1) |}.

(** As [quiet_world], but every statement answers 0, which is what
    [GET_LOCK] answers when its timeout elapses. *)
Definition busy_lock_world (d : Dialect) : World :=
  {| Session_factory := fun _ => session_on d;
     commit_raises := fun _ _ => None;
     rollback_raises := fun _ _ => None;
     close_raises := fun _ _ => None;
     flush_raises := fun _ _ => None;
     execute_result := fun _ _ _ => inr (PInt 0) |}.

(** [session.add(x); session.flush()] *)
Definition add_and_flush (x : pyval) (session : SASession) : M pyval :=
  add session x;; flush session;; mret PNone.

(** [raise e] *)
Definition raising (e : exn) (session : SASession) : M pyval := raise e.

(** A protected block that leaves one mark and returns. *)
Definition marked_block : M pyval := fun _ _ => ([EvOther "block"], Returned PNone).

(** An operation in the style of the callers of [provide_session],
    [def save(value, session=None): session.add(value)]. *)
Definition save : pyfunc pyval :=
  {| qualname := "save";
     parameters := ["value"; "session"];
     call := fun args kwargs =>
       match bind_arguments "save" [("value", None); ("session", Some PNone)] args kwargs with
       | inl e => raise e
       | inr bound =>
           match argument bound "session" with
           | PSession session => add session (argument bound "value");; mret PNone
           | v =>
               raise (Exn AttributeError
                        ("'" +:+ type_name v +:+ "' object has no attribute 'add'"))
           end
       end |}.

(** The same operation declared without the parameter,
    [def save_detached(value): pass]. *)
Definition save_detached : pyfunc pyval :=
  {| qualname := "save_detached";
     parameters := ["value"];
     call := fun args kwargs =>
       match bind_arguments "save_detached" [("value", None)] args kwargs with
       | inl e => raise e
       | inr _ => mret PNone
       end |}.

(** A stand-in for the decoder of [json] on the documents used below:
    [{}] parses, and anything else is turned down the way [json] turns
    down a text that does not start a value. *)
Definition sample_decode (doc : string) : option exn :=
  if bool_decide (doc = "{}")
  then None
  else Some (Exn JSONDecodeError "Expecting value: line 1 column 1 (char 0)").

(** [str.format] on templates without replacement fields. *)
Definition sample_format (template : string) (arg : pyval) : exn + string :=
  inr template.

Definition field_with (text : string) : Field :=
  {| data := PStr text; gettext := fun s => s |}.

(** A form with one other field, [start], holding [v]. *)
Definition form_with_start (v : pyval) : gmap string FormField :=
  {[ "start" := {| form_field := {| data := v; gettext := fun s => s |};
                   label_text := Some "Start" |} ]}.

Definition number_field (z : Z) : Field :=
  {| data := PInt z; gettext := fun s => s |}.

(** [%]-formatting of templates without conversion specifiers. *)
Definition sample_percent_format (template : string) (mapping : gmap string string)
    : exn + string :=
  inr template.

(** A key check that turns down keys longer than the limit. *)
Definition sample_validate_key (k : pyval) (limit : Z) : option exn :=
  match k with
  | PStr text =>
      if bool_decide (Z.of_nat (String.length text) <= limit)%Z
      then None
      else Some (Exn (UserException "AirflowException") "The key has to be shorter")
  | _ => Some (Exn TypeError "The key has to be a string")
  end.

(** A world where committing fails, as on a violated constraint. *)
Definition failing_commit_world (d : Dialect) : World :=
  {| Session_factory := fun _ => session_on d;
     commit_raises := fun _ _ =>
       Some (Exn (UserException "IntegrityError") "duplicate key");
     rollback_raises := fun _ _ => None;
     close_raises := fun _ _ => None;
     flush_raises := fun _ _ => None;
     execute_result := fun _ _ _ => inr (PInt 1) |}.

(** A world where the release statement of postgresql fails. *)
Definition failing_release_world (d : Dialect) : World :=
  {| Session_factory := fun _ => session_on d;
     commit_raises := fun _ _ => None;
     rollback_raises := fun _ _ => None;
     close_raises := fun _ _ => None;
     flush_raises := fun _ _ => None;
     execute_result := fun _ stmt _ =>
       if bool_decide (stmt = "select PG_ADVISORY_UNLOCK(1);")
       then inl (Exn (UserException "OperationalError") "server closed the connection")
       else inr (PInt 1) |}.

(** A world where closing the session fails. *)
Definition failing_close_world (d : Dialect) : World :=
  {| Session_factory := fun _ => session_on d;
     commit_raises := fun _ _ => None;
     rollback_raises := fun _ _ => None;
     close_raises := fun _ _ =>
       Some (Exn (UserException "OperationalError") "server closed the connection");
     flush_raises := fun _ _ => None;
     execute_result := fun _ _ _ => inr (PInt 1) |}.

(** A decoder that gives up on a deeply nested document. *)
Definition exhausted_decode (doc : string) : option exn :=
  Some (Exn (UserException "RecursionError")
          "maximum recursion depth exceeded while decoding a JSON array from a unicode string").

Definition sqlite : Dialect :=
  {| name := "sqlite"; server_version_info := [3; 31; 1]%Z |}.

(** * Properties of [create_session] *)

Ltac unfold_monad :=
  unfold mbind, M_bind, mret, M_ret, bind, ret, raise, try_finally,
    try_except_Exception, method_call in *.

Ltac tidy := rewrite ?app_nil_r, <- ?app_assoc; simpl; try reflexivity.

Ltac unfold_session :=
  unfold create_session, Session, commit, rollback, close in *; unfold_monad.

(** C1 (as stated, refuted): a block that raises [KeyboardInterrupt]
    leaves the scope without a rollback, although every session call
    succeeds; the session is only closed. *)
Lemma create_session_rollback_not_on_every_exception :
  ~ (forall (w : World) (block : SASession -> M pyval) (h t : list event) (e : exn),
       let s := Session_factory w h in
       (forall s' h', commit_raises w s' h' = None
                      /\ rollback_raises w s' h' = None
                      /\ close_raises w s' h' = None) ->
       block s w (h ++ [EvSession s]) = (t, Raised e) ->
       create_session block w h
       = (EvSession s :: t ++ [EvRollback s; EvClose s], Raised e)).
Proof.
  intros claim.
  specialize (claim (quiet_world postgresql)
                (raising (Exn KeyboardInterrupt "")) [] [] (Exn KeyboardInterrupt "")).
  simpl in claim.
  assert (Hno : @create_session pyval (raising (Exn KeyboardInterrupt ""))
                  (quiet_world postgresql) []
                = ([EvSession (session_on postgresql); EvClose (session_on postgresql)],
                   Raised (Exn KeyboardInterrupt ""))) by reflexivity.
  rewrite Hno in claim.
  assert (Hbad : ([EvSession (session_on postgresql); EvClose (session_on postgresql)],
                  @Raised pyval (Exn KeyboardInterrupt ""))
                 = ([EvSession (session_on postgresql); EvRollback (session_on postgresql);
                     EvClose (session_on postgresql)],
                    Raised (Exn KeyboardInterrupt ""))).
  { apply claim; [intros; repeat split | reflexivity]. }
  discriminate Hbad.
Qed.

(** C1 (amended): inside a [create_session] scope whose own commit,
    rollback and close calls succeed, a block that completes normally has
    the session committed and then closed, without a rollback; a block
    that raises [E] has the session closed and [E] reaches the caller
    unchanged, after a rollback exactly when [E] is an instance of
    [Exception]. *)
Theorem create_session_commit_or_rollback
    {A} (w : World) (block : SASession -> M A) (h : list event) :
  let s := Session_factory w h in
  (forall s' h', commit_raises w s' h' = None
                 /\ rollback_raises w s' h' = None
                 /\ close_raises w s' h' = None) ->
  (forall t v,
      block s w (h ++ [EvSession s]) = (t, Returned v) ->
      create_session block w h
      = (EvSession s :: t ++ [EvCommit s; EvClose s], Returned v))
  /\ (forall t e,
      block s w (h ++ [EvSession s]) = (t, Raised e) ->
      create_session block w h
      = (EvSession s :: t
           ++ (if is_Exception (exn_cls e) then [EvRollback s] else [])
           ++ [EvClose s],
         Raised e)).
Proof.
  intros s Hquiet.
  assert (Hc : forall h', commit_raises w s h' = None) by (intros; apply Hquiet).
  assert (Hr : forall h', rollback_raises w s h' = None) by (intros; apply Hquiet).
  assert (Hx : forall h', close_raises w s h' = None) by (intros; apply Hquiet).
  split; intros t x Hblock; unfold_session; fold s; simpl.
  - rewrite Hblock, Hc. simpl. rewrite Hx. simpl. tidy.
  - rewrite Hblock.
    destruct (is_Exception (exn_cls x)); simpl.
    + rewrite Hr. simpl. rewrite Hx. simpl. tidy.
    + rewrite Hx. tidy.
Qed.

(** The two scenarios of the specification: [S.add(x); S.flush()] is
    committed and closed, [ValueError("bad")] is rolled back, closed and
    seen by the caller. *)
Lemma create_session_commit_or_rollback_witness :
  create_session (add_and_flush (PInt 7)) (quiet_world postgresql) []
  = ([EvSession (session_on postgresql);
      EvAdd (session_on postgresql) (PInt 7);
      EvFlush (session_on postgresql);
      EvCommit (session_on postgresql);
      EvClose (session_on postgresql)],
     Returned PNone)
  /\ create_session (raising (Exn ValueError "bad")) (quiet_world postgresql) []
     = ([EvSession (session_on postgresql);
         EvRollback (session_on postgresql);
         EvClose (session_on postgresql)],
        Raised (Exn ValueError "bad")).
Proof.
  split.
  - apply (proj1 (create_session_commit_or_rollback
                    (quiet_world postgresql) (add_and_flush (PInt 7)) []
                    (fun _ _ => conj eq_refl (conj eq_refl eq_refl)))
             [EvAdd (session_on postgresql) (PInt 7); EvFlush (session_on postgresql)]
             PNone).
    reflexivity.
  - apply (proj2 (create_session_commit_or_rollback
                    (quiet_world postgresql) (raising (Exn ValueError "bad")) []
                    (fun _ _ => conj eq_refl (conj eq_refl eq_refl)))
             [] (Exn ValueError "bad")).
    reflexivity.
Defined.

(** C8 (as stated, refuted): the block raises [ValueError("bad")], the
    rollback then fails on a lost connection, and the caller sees the
    failure of the rollback, not the [ValueError]. *)
Lemma create_session_rollback_failure_masks :
  ~ (forall (w : World) (block : SASession -> M pyval) (h t : list event) (e : exn),
       let s := Session_factory w h in
       block s w (h ++ [EvSession s]) = (t, Raised e) ->
       is_Exception (exn_cls e) = true ->
       result (create_session block) w h = Raised e).
Proof.
  intros claim.
  specialize (claim (lost_connection_world postgresql)
                (raising (Exn ValueError "bad")) [] [] (Exn ValueError "bad")
                eq_refl eq_refl).
  vm_compute in claim. discriminate claim.
Qed.

(** C8 (amended): when the block raises [E], an instance of [Exception],
    and the rollback itself raises [R], the session is still closed, and
    the caller observes [R] (or the failure of the close, when that fails
    too) in place of [E]. *)
Theorem create_session_rollback_failure_replaces
    {A} (w : World) (block : SASession -> M A) (h t : list event) (e r : exn) :
  let s := Session_factory w h in
  block s w (h ++ [EvSession s]) = (t, Raised e) ->
  is_Exception (exn_cls e) = true ->
  rollback_raises w s ((h ++ [EvSession s]) ++ t) = Some r ->
  create_session block w h
  = (EvSession s :: t ++ [EvRollback s; EvClose s],
     Raised (default r
               (close_raises w s ((h ++ [EvSession s]) ++ t ++ [EvRollback s])))).
Proof.
  intros s Hblock Hexc Hrollback.
  unfold_session; fold s; simpl.
  rewrite Hblock, Hexc. simpl. rewrite Hrollback. simpl.
  destruct (close_raises w s _); tidy.
Qed.

Lemma create_session_rollback_failure_replaces_witness :
  create_session (raising (Exn ValueError "bad")) (lost_connection_world postgresql) []
  = ([EvSession (session_on postgresql);
      EvRollback (session_on postgresql);
      EvClose (session_on postgresql)],
     Raised (Exn (UserException "OperationalError") "server closed the connection")).
Proof.
  apply (create_session_rollback_failure_replaces
           (lost_connection_world postgresql) (raising (Exn ValueError "bad")) [] []
           (Exn ValueError "bad")
           (Exn (UserException "OperationalError") "server closed the connection")
           eq_refl eq_refl eq_refl).
Defined.

(** * Properties of [provide_session] *)

Lemma tuple_index_None (x : string) (names : list string) :
  tuple_index x names = None <-> x ∉ names.
Proof.
  induction names as [|y rest IH]; simpl.
  - split; [intros _; apply not_elem_of_nil | reflexivity].
  - destruct (decide (y = x)) as [->|Hne].
    + split; [discriminate | intros Hnot; exfalso; apply Hnot; left].
    + rewrite not_elem_of_cons, <- IH.
      destruct (tuple_index x rest); simpl; split; try discriminate; intuition congruence.
Qed.

Lemma tuple_index_Some (x : string) (names : list string) (i : nat) :
  tuple_index x names = Some i -> names !! i = Some x.
Proof.
  revert i. induction names as [|y rest IH]; simpl; intros i; [discriminate|].
  destruct (decide (y = x)) as [->|Hne].
  - intros [= <-]. reflexivity.
  - destruct (tuple_index x rest) as [j|]; simpl; [|discriminate].
    intros [= <-]. simpl. apply IH. reflexivity.
Qed.

Lemma provide_session_inr {R} (func wrapped : pyfunc R) :
  provide_session func = inr wrapped ->
  exists idx,
    find_session_idx func = inr idx
    /\ call wrapped = wrapper func idx
    /\ qualname wrapped = qualname func
    /\ parameters wrapped = parameters func.
Proof.
  unfold provide_session.
  destruct (find_session_idx func) as [e|idx]; [discriminate|].
  intros [= <-]. exists idx. repeat split.
Qed.

Lemma wrapper_supplied {R} (func : pyfunc R) (idx : nat)
    (args : list pyval) (kwargs : gmap string pyval) :
  is_Some (kwargs !! "session") \/ is_Some (args !! idx) ->
  wrapper func idx args kwargs = call func args kwargs.
Proof.
  intros [Hkw|Hpos]; unfold wrapper.
  - rewrite bool_decide_eq_true_2 by exact Hkw. reflexivity.
  - apply lookup_lt_is_Some in Hpos.
    apply Nat.ltb_lt in Hpos. rewrite Hpos, orb_true_r. reflexivity.
Qed.

Lemma wrapper_missing {R} (func : pyfunc R) (idx : nat)
    (args : list pyval) (kwargs : gmap string pyval) :
  kwargs !! "session" = None ->
  args !! idx = None ->
  wrapper func idx args kwargs
  = create_session (fun session =>
      call func args (<["session" := PSession session]> kwargs)).
Proof.
  intros Hkw Hpos. unfold wrapper.
  rewrite bool_decide_eq_false_2 by (rewrite Hkw; apply is_Some_None).
  apply lookup_ge_None in Hpos.
  replace (idx <? length args)%nat with false
    by (symmetry; apply Nat.ltb_ge; exact Hpos).
  reflexivity.
Qed.

(** C2: a call of the decorated operation that already carries a session,
    by the keyword [session] or at the position of the [session]
    parameter, is the call of the operation itself on the same arguments:
    the same events, so no session opened by the wrapper, and the same
    outcome. *)
Theorem provide_session_supplied
    {R} (func wrapped : pyfunc R) (idx : nat)
    (args : list pyval) (kwargs : gmap string pyval) :
  provide_session func = inr wrapped ->
  find_session_idx func = inr idx ->
  is_Some (kwargs !! "session") \/ is_Some (args !! idx) ->
  call wrapped args kwargs = call func args kwargs.
Proof.
  intros Hdec Hidx Hsupplied.
  destruct (provide_session_inr _ _ Hdec) as (idx' & Hidx' & -> & _).
  rewrite Hidx in Hidx'. injection Hidx' as <-.
  apply wrapper_supplied, Hsupplied.
Qed.

(** [save(7, session=S)] and [save(7, S)] through the decorator. *)
Lemma provide_session_supplied_witness :
  call (decorated save) [PInt 7] {[ "session" := PSession (session_on postgresql) ]}
  = call save [PInt 7] {[ "session" := PSession (session_on postgresql) ]}
  /\ call (decorated save) [PInt 7; PSession (session_on postgresql)] ∅
     = call save [PInt 7; PSession (session_on postgresql)] ∅.
Proof.
  split.
  - apply (provide_session_supplied save (decorated save) 1 _ _ eq_refl eq_refl).
    left. exists (PSession (session_on postgresql)). reflexivity.
  - apply (provide_session_supplied save (decorated save) 1 _ _ eq_refl eq_refl).
    right. exists (PSession (session_on postgresql)). reflexivity.
Defined.

(** C3: a call of the decorated operation that carries no session opens
    one session, passes it to the operation under the keyword [session],
    commits it once the operation has returned normally, and closes it
    once, whatever happened; between the opening and these calls lie the
    operation's own events and nothing else. *)
Theorem provide_session_missing
    {R} (func wrapped : pyfunc R) (idx : nat)
    (args : list pyval) (kwargs : gmap string pyval)
    (w : World) (h : list event) :
  provide_session func = inr wrapped ->
  find_session_idx func = inr idx ->
  kwargs !! "session" = None ->
  args !! idx = None ->
  let s := Session_factory w h in
  let injected := <["session" := PSession s]> kwargs in
  (forall t v,
      call func args injected w (h ++ [EvSession s]) = (t, Returned v) ->
      trace (call wrapped args kwargs) w h
      = EvSession s :: t
          ++ EvCommit s
          :: match commit_raises w s ((h ++ [EvSession s]) ++ t) with
             | Some failure =>
                 if is_Exception (exn_cls failure) then [EvRollback s] else []
             | None => []
             end
          ++ [EvClose s]
      /\ (commit_raises w s ((h ++ [EvSession s]) ++ t) = None ->
          close_raises w s ((h ++ [EvSession s]) ++ t ++ [EvCommit s]) = None ->
          result (call wrapped args kwargs) w h = Returned v))
  /\ (forall t e,
      call func args injected w (h ++ [EvSession s]) = (t, Raised e) ->
      trace (call wrapped args kwargs) w h
      = EvSession s :: t
          ++ (if is_Exception (exn_cls e) then [EvRollback s] else [])
          ++ [EvClose s]).
Proof.
  intros Hdec Hidx Hkw Hpos s injected.
  destruct (provide_session_inr _ _ Hdec) as (idx' & Hidx' & -> & _).
  rewrite Hidx in Hidx'. injection Hidx' as <-.
  rewrite (wrapper_missing func idx args kwargs Hkw Hpos).
  unfold trace, result.
  split; intros t x Hcall; unfold_session; fold s; fold injected; simpl;
    rewrite Hcall; simpl.
  - split.
    + destruct (commit_raises w s _) as [failure|]; simpl.
      * destruct (is_Exception (exn_cls failure)); simpl.
        -- destruct (rollback_raises w s _); simpl;
             destruct (close_raises w s _); tidy.
        -- destruct (close_raises w s _); tidy.
      * destruct (close_raises w s _); tidy.
    + intros Hcommit Hclose. rewrite Hcommit. simpl.
      rewrite Hclose. reflexivity.
  - destruct (is_Exception (exn_cls x)); simpl.
    + destruct (rollback_raises w s _); simpl;
        destruct (close_raises w s _); tidy.
    + destruct (close_raises w s _); tidy.
Qed.

(** [save(7)] through the decorator. *)
Lemma provide_session_missing_witness :
  trace (call (decorated save) [PInt 7] ∅) (quiet_world postgresql) []
  = [EvSession (session_on postgresql);
     EvAdd (session_on postgresql) (PInt 7);
     EvCommit (session_on postgresql);
     EvClose (session_on postgresql)]
  /\ result (call (decorated save) [PInt 7] ∅) (quiet_world postgresql) []
     = Returned PNone.
Proof.
  pose proof (provide_session_missing save (decorated save) 1 [PInt 7] ∅
                (quiet_world postgresql) []) as H.
  specialize (H ltac:(reflexivity) ltac:(reflexivity)
                ltac:(reflexivity) ltac:(reflexivity)).
  cbv zeta in H. destruct H as [Hnormal _].
  destruct (Hnormal [EvAdd (session_on postgresql) (PInt 7)] PNone
              ltac:(vm_compute; reflexivity)) as [Htrace Hresult].
  split.
  - exact Htrace.
  - apply Hresult; reflexivity.
Defined.

(** C10: [session=None], given by keyword or at the position of the
    parameter, counts as a session that was supplied: the call is the call
    of the operation itself on the same arguments, [None] included, and
    the wrapper opens nothing. *)
Theorem provide_session_explicit_None
    {R} (func wrapped : pyfunc R) (idx : nat)
    (args : list pyval) (kwargs : gmap string pyval) :
  provide_session func = inr wrapped ->
  find_session_idx func = inr idx ->
  kwargs !! "session" = Some PNone \/ args !! idx = Some PNone ->
  call wrapped args kwargs = call func args kwargs.
Proof.
  intros Hdec Hidx Hnone.
  destruct (provide_session_inr _ _ Hdec) as (idx' & Hidx' & -> & _).
  rewrite Hidx in Hidx'. injection Hidx' as <-.
  apply wrapper_supplied.
  destruct Hnone as [Hkw|Hpos]; [left; rewrite Hkw | right; rewrite Hpos]; eexists; reflexivity.
Qed.

(** [save(7, session=None)] and [save(7, None)] through the decorator:
    each reaches [save] as it is, which then fails on [None.add], and no
    session is opened. *)
Lemma provide_session_explicit_None_witness :
  (call (decorated save) [PInt 7] {[ "session" := PNone ]}
   = call save [PInt 7] {[ "session" := PNone ]}
   /\ call (decorated save) [PInt 7; PNone] ∅ = call save [PInt 7; PNone] ∅)
  /\ call save [PInt 7; PNone] ∅ (quiet_world postgresql) []
     = ([], Raised (Exn AttributeError "'NoneType' object has no attribute 'add'")).
Proof.
  split; [split|].
  - apply (provide_session_explicit_None save (decorated save) 1 _ _ eq_refl eq_refl).
    left. reflexivity.
  - apply (provide_session_explicit_None save (decorated save) 1 _ _ eq_refl eq_refl).
    right. reflexivity.
  - reflexivity.
Defined.

(** C4: decorating a function whose signature has no parameter named
    [session] raises, from the decorator itself, a [ValueError] that names
    the function; the body of the function plays no part in it.  With the
    parameter the decorator returns the wrapper, and a call of the wrapper
    only ever runs the function, directly or inside a [create_session]
    scope: the lookup is not repeated at call time. *)
Theorem provide_session_without_session_parameter {R} (func : pyfunc R) :
  ("session" ∉ parameters func ->
   provide_session func
   = inl (Exn ValueError
            ("Function " +:+ qualname func +:+ " has no `session` argument")))
  /\ ("session" ∈ parameters func ->
      exists wrapped,
        provide_session func = inr wrapped
        /\ forall args kwargs,
             call wrapped args kwargs = call func args kwargs
             \/ call wrapped args kwargs
                = create_session (fun session =>
                    call func args (<["session" := PSession session]> kwargs))).
Proof.
  unfold provide_session, find_session_idx. split.
  - intros Hnot. apply tuple_index_None in Hnot. rewrite Hnot. reflexivity.
  - intros Hin.
    destruct (tuple_index "session" (parameters func)) as [idx|] eqn:Hidx.
    + eexists. split; [reflexivity|].
      intros args kwargs. simpl. unfold wrapper.
      destruct (_ || _); [left | right]; reflexivity.
    + apply tuple_index_None in Hidx. contradiction.
Qed.

(** [provide_session(save_detached)] and [provide_session(save)]. *)
Lemma provide_session_without_session_parameter_witness :
  provide_session save_detached
  = inl (Exn ValueError "Function save_detached has no `session` argument")
  /\ exists wrapped, provide_session save = inr wrapped.
Proof.
  split.
  - apply (proj1 (provide_session_without_session_parameter save_detached)).
    intros Hin. apply list_elem_of_In in Hin. simpl in Hin.
    destruct Hin as [Hin|[]]. discriminate Hin.
  - destruct (proj2 (provide_session_without_session_parameter save)) as (wrapped & Hw & _).
    + apply list_elem_of_In. simpl. right. left. reflexivity.
    + exists wrapped. exact Hw.
Defined.

(** * Properties of [create_global_lock] *)

Lemma tuple_ge_not_lt (a b : list Z) : tuple_ge a b = negb (tuple_lt a b).
Proof.
  revert b. induction a as [|x a IH]; intros [|y b]; simpl; try reflexivity.
  destruct (decide (x = y)) as [->|Hne]; [apply IH|].
  destruct (bool_decide_reflect (y < x)%Z), (bool_decide_reflect (x < y)%Z);
    simpl; try reflexivity; lia.
Qed.

(** Whatever a call of the decorated function returns is the generator
    body on some arguments: the statements below, on the body, speak of
    every execution. *)
Lemma create_global_lock_returns_body
    (args : list pyval) (kwargs : gmap string pyval)
    (w : World) (h t : list event) (manager : ctxmgr) :
  call create_global_lock args kwargs w h = (t, Returned manager) ->
  exists session pg_lock_id lock_name mysql_lock_timeout,
    manager = create_global_lock_body session pg_lock_id lock_name mysql_lock_timeout.
Proof.
  assert (Hmanager : forall args' kwargs' w' h' t' m',
             call create_global_lock_manager args' kwargs' w' h' = (t', Returned m') ->
             exists session pg_lock_id lock_name mysql_lock_timeout,
               m' = create_global_lock_body session pg_lock_id lock_name mysql_lock_timeout).
  { intros args' kwargs' w' h' t' m'. simpl.
    destruct (bind_arguments _ _ _ _) as [e|bound]; [discriminate|].
    intros [= _ <-]. eauto. }
  change (call create_global_lock args kwargs) with
    (wrapper create_global_lock_manager 0 args kwargs).
  unfold wrapper. destruct (_ || _); [apply Hmanager|].
  unfold_session.
  destruct (call create_global_lock_manager _ _ _ _) as [t1 [m1|e1]] eqn:Hcall;
    simpl.
  - apply Hmanager in Hcall.
    destruct (commit_raises _ _ _) as [c|]; simpl.
    + destruct (is_Exception _); simpl;
        [destruct (rollback_raises _ _ _); simpl|];
        destruct (close_raises _ _ _); discriminate.
    + destruct (close_raises _ _ _); [discriminate|].
      intros [= _ <-]. exact Hcall.
  - destruct (is_Exception _); simpl;
      [destruct (rollback_raises _ _ _); simpl|];
      destruct (close_raises _ _ _); discriminate.
Qed.

(** The decorator does find the parameter of [create_global_lock]. *)
Example create_global_lock_is_decorated :
  provide_session create_global_lock_manager = inr create_global_lock
  /\ find_session_idx create_global_lock_manager = inr 0%nat.
Proof. split; reflexivity. Qed.

(** [with create_global_lock(session=S, pg_lock_id=42): ...] runs on the
    session it is given. *)
Example with_create_global_lock_on_given_session :
  with_call create_global_lock []
    {[ "session" := PSession (session_on postgresql); "pg_lock_id" := PInt 42 ]}
    marked_block (quiet_world postgresql) []
  = ([EvExecute (session_on postgresql) "select PG_ADVISORY_LOCK(42);";
      EvOther "block";
      EvExecute (session_on postgresql) "select PG_ADVISORY_UNLOCK(42);"],
     Returned PNone).
Proof. vm_compute. reflexivity. Qed.

(** [with create_global_lock(): ...]: the call goes through
    [create_session], which has committed and closed the session it
    opened by the time the manager is returned; the lock statements run on
    that session afterwards, when the [with] statement enters the
    manager. *)
Example with_create_global_lock_on_provided_session :
  with_call create_global_lock [] ∅ marked_block (quiet_world postgresql) []
  = ([EvSession (session_on postgresql);
      EvCommit (session_on postgresql);
      EvClose (session_on postgresql);
      EvExecute (session_on postgresql) "select PG_ADVISORY_LOCK(1);";
      EvOther "block";
      EvExecute (session_on postgresql) "select PG_ADVISORY_UNLOCK(1);"],
     Returned PNone).
Proof. vm_compute. reflexivity. Qed.

Ltac decide_dialect H :=
  rewrite ?H;
  rewrite ?bool_decide_eq_true_2 by reflexivity;
  rewrite ?bool_decide_eq_false_2 by discriminate.

Ltac unfold_lock :=
  unfold create_global_lock_body, execute_if, connection, execute, trace, result;
  unfold_monad; simpl.

(** C5: on postgresql one [PG_ADVISORY_LOCK] statement with the given id
    is executed first, one [PG_ADVISORY_UNLOCK] statement with the same id
    last, and between them lie the events of the protected block, whether
    it returned or raised (and none when the acquire statement itself
    raised, the release being executed all the same). *)
Theorem create_global_lock_postgresql
    (w : World) (s : SASession) (id : Z) (lock_name mysql_lock_timeout : pyval)
    (block : M pyval) (h : list event) :
  name (session_dialect s) = "postgresql" ->
  let acquire := EvExecute s ("select PG_ADVISORY_LOCK(" +:+ pretty id +:+ ");") in
  let release := EvExecute s ("select PG_ADVISORY_UNLOCK(" +:+ pretty id +:+ ");") in
  trace (create_global_lock_body (PSession s) (PInt id) lock_name mysql_lock_timeout block)
        w h
  = acquire
      :: match execute_result w s ("select PG_ADVISORY_LOCK(" +:+ pretty id +:+ ");") h with
         | inr _ => trace block w (h ++ [acquire])
         | inl _ => []
         end
      ++ [release].
Proof.
  intros Hname acquire release.
  unfold_lock. decide_dialect Hname. simpl.
  unfold PG_ADVISORY_LOCK, PG_ADVISORY_UNLOCK, py_format. fold acquire release.
  rewrite ?app_nil_r.
  destruct (execute_result w s _ h) as [e|v]; simpl.
  - destruct (execute_result w s _ _); reflexivity.
  - rewrite ?app_nil_r.
    destruct (block w (h ++ [acquire])) as [tb rb]; simpl.
    destruct (execute_result w s _ _); simpl; destruct rb; tidy.
Qed.

(** [with create_global_lock(session=S, pg_lock_id=42)] around a block
    that returns and around one that raises. *)
Lemma create_global_lock_postgresql_witness :
  trace (create_global_lock_body (PSession (session_on postgresql)) (PInt 42)
           (PStr "init") (PInt 1800) marked_block)
        (quiet_world postgresql) []
  = [EvExecute (session_on postgresql) "select PG_ADVISORY_LOCK(42);";
     EvOther "block";
     EvExecute (session_on postgresql) "select PG_ADVISORY_UNLOCK(42);"]
  /\ trace (create_global_lock_body (PSession (session_on postgresql)) (PInt 42)
              (PStr "init") (PInt 1800) (raise (Exn KeyboardInterrupt "")))
           (quiet_world postgresql) []
     = [EvExecute (session_on postgresql) "select PG_ADVISORY_LOCK(42);";
        EvExecute (session_on postgresql) "select PG_ADVISORY_UNLOCK(42);"].
Proof.
  split.
  - apply (create_global_lock_postgresql (quiet_world postgresql)
             (session_on postgresql) 42 (PStr "init") (PInt 1800) marked_block []).
    reflexivity.
  - apply (create_global_lock_postgresql (quiet_world postgresql)
             (session_on postgresql) 42 (PStr "init") (PInt 1800)
             (raise (Exn KeyboardInterrupt "")) []).
    reflexivity.
Defined.

(** C6 (as stated, refuted): on mysql 8.0 with a lock that cannot be
    granted, [GET_LOCK] answers 0 when the timeout elapses; no error
    surfaces, and the protected block runs. *)
Lemma create_global_lock_mysql_timeout_unnoticed :
  ~ (forall (w : World) (s : SASession) (pg_lock_id lock_name mysql_lock_timeout : pyval)
            (block : M pyval) (h : list event),
       name (session_dialect s) = "mysql" ->
       tuple_ge (server_version_info (session_dialect s)) [5; 6]%Z = true ->
       execute_result w s (GET_LOCK lock_name mysql_lock_timeout) h = inr (PInt 0) ->
       exists e,
         result (create_global_lock_body (PSession s) pg_lock_id lock_name
                   mysql_lock_timeout block) w h
         = Raised e)
  /\ create_global_lock_body (PSession (session_on mysql_8_0)) (PInt 1) (PStr "init")
       (PInt 1) marked_block (busy_lock_world mysql_8_0) []
     = ([EvExecute (session_on mysql_8_0) "select GET_LOCK('init',1);";
         EvOther "block";
         EvExecute (session_on mysql_8_0) "select RELEASE_LOCK('init');"],
        Returned PNone).
Proof.
  split; [|reflexivity].
  intros claim.
  destruct (claim (busy_lock_world mysql_8_0) (session_on mysql_8_0)
              (PInt 1) (PStr "init") (PInt 1) marked_block []
              eq_refl eq_refl eq_refl) as [e He].
  vm_compute in He. discriminate He.
Qed.

(** C6 (amended): on mysql at or above (5, 6) the answer of the
    [GET_LOCK] statement is not looked at.  Whatever it answers, the
    timeout indicator included, the protected block runs between the
    acquire and the release statement and its outcome is the outcome of
    the scope; the block is skipped only when executing the acquire
    statement itself raises, and then the release statement is still
    executed and an exception reaches the caller. *)
Theorem create_global_lock_mysql_answer_ignored
    (w : World) (s : SASession) (pg_lock_id lock_name mysql_lock_timeout : pyval)
    (block : M pyval) (h : list event) :
  name (session_dialect s) = "mysql" ->
  tuple_ge (server_version_info (session_dialect s)) [5; 6]%Z = true ->
  let acquire := EvExecute s (GET_LOCK lock_name mysql_lock_timeout) in
  let release := EvExecute s (RELEASE_LOCK lock_name) in
  let scope :=
    create_global_lock_body (PSession s) pg_lock_id lock_name mysql_lock_timeout block in
  (forall answer,
      execute_result w s (GET_LOCK lock_name mysql_lock_timeout) h = inr answer ->
      trace scope w h = acquire :: trace block w (h ++ [acquire]) ++ [release]
      /\ (forall released,
             execute_result w s (RELEASE_LOCK lock_name)
               (h ++ acquire :: trace block w (h ++ [acquire])) = inr released ->
             result scope w h = result block w (h ++ [acquire])))
  /\ (forall e,
      execute_result w s (GET_LOCK lock_name mysql_lock_timeout) h = inl e ->
      scope w h
      = ([acquire; release],
         Raised match execute_result w s (RELEASE_LOCK lock_name) (h ++ [acquire]) with
                | inl e' => e'
                | inr _ => e
                end)).
Proof.
  intros Hname Hversion acquire release scope. subst scope.
  split; [intros answer Hacquire | intros e Hacquire];
    unfold_lock; decide_dialect Hname; rewrite Hversion; simpl;
    fold acquire release; rewrite ?app_nil_r; rewrite Hacquire; simpl.
  - rewrite ?app_nil_r.
    destruct (block w (h ++ [acquire])) as [tb rb]; simpl.
    rewrite ?app_nil_r. split.
    + destruct (execute_result w s (RELEASE_LOCK lock_name) _); simpl;
        destruct rb; tidy.
    + intros released Hrelease. rewrite Hrelease. simpl.
      destruct rb; reflexivity.
  - rewrite ?app_nil_r.
    destruct (execute_result w s (RELEASE_LOCK lock_name) _); reflexivity.
Qed.

Lemma create_global_lock_mysql_answer_ignored_witness :
  trace (create_global_lock_body (PSession (session_on mysql_8_0)) (PInt 1) (PStr "init")
           (PInt 1) marked_block)
        (busy_lock_world mysql_8_0) []
  = [EvExecute (session_on mysql_8_0) "select GET_LOCK('init',1);";
     EvOther "block";
     EvExecute (session_on mysql_8_0) "select RELEASE_LOCK('init');"]
  /\ result (create_global_lock_body (PSession (session_on mysql_8_0)) (PInt 1)
               (PStr "init") (PInt 1) marked_block)
            (busy_lock_world mysql_8_0) []
     = Returned PNone.
Proof.
  pose proof (create_global_lock_mysql_answer_ignored (busy_lock_world mysql_8_0)
                (session_on mysql_8_0) (PInt 1) (PStr "init") (PInt 1) marked_block []
                eq_refl eq_refl) as H.
  cbv zeta in H. destruct H as [Hanswered _].
  destruct (Hanswered (PInt 0) eq_refl) as [Htrace Hresult].
  split.
  - exact Htrace.
  - exact (Hresult (PInt 0) eq_refl).
Defined.

(** C7: on mysql below (5, 6) the scope executes no statement, neither on
    entry nor on exit: it is the protected block and nothing else, and so
    is the scope on mssql, the backend without a lock. *)
Theorem create_global_lock_old_mysql_is_noop
    (w : World) (s : SASession) (pg_lock_id lock_name mysql_lock_timeout : pyval)
    (block : M pyval) (h : list event) :
  name (session_dialect s) = "mysql" ->
  tuple_lt (server_version_info (session_dialect s)) [5; 6]%Z = true ->
  create_global_lock_body (PSession s) pg_lock_id lock_name mysql_lock_timeout block w h
  = block w h
  /\ forall s',
      name (session_dialect s') = "mssql" ->
      create_global_lock_body (PSession s') pg_lock_id lock_name mysql_lock_timeout
        block w h
      = create_global_lock_body (PSession s) pg_lock_id lock_name mysql_lock_timeout
          block w h.
Proof.
  intros Hname Hversion.
  assert (Hge : tuple_ge (server_version_info (session_dialect s)) [5; 6]%Z = false)
    by (rewrite tuple_ge_not_lt, Hversion; reflexivity).
  assert (Hmysql : create_global_lock_body (PSession s) pg_lock_id lock_name
                     mysql_lock_timeout block w h = block w h).
  { unfold_lock. decide_dialect Hname. rewrite Hge. simpl.
    rewrite ?app_nil_r. destruct (block w h) as [tb rb]. destruct rb; tidy. }
  split; [exact Hmysql|].
  intros s' Hname'. rewrite Hmysql.
  unfold_lock. decide_dialect Hname'. simpl.
  rewrite ?app_nil_r. destruct (block w h) as [tb rb]. destruct rb; tidy.
Qed.

Lemma create_global_lock_old_mysql_is_noop_witness :
  create_global_lock_body (PSession (session_on mysql_5_5)) (PInt 1) (PStr "init")
    (PInt 1800) marked_block (quiet_world mysql_5_5) []
  = ([EvOther "block"], Returned PNone)
  /\ create_global_lock_body (PSession (session_on mssql)) (PInt 1) (PStr "init")
       (PInt 1800) marked_block (quiet_world mysql_5_5) []
     = create_global_lock_body (PSession (session_on mysql_5_5)) (PInt 1) (PStr "init")
         (PInt 1800) marked_block (quiet_world mysql_5_5) [].
Proof.
  destruct (create_global_lock_old_mysql_is_noop (quiet_world mysql_5_5)
              (session_on mysql_5_5) (PInt 1) (PStr "init") (PInt 1800) marked_block []
              eq_refl eq_refl) as [Hnoop Hsame].
  split.
  - exact Hnoop.
  - exact (Hsame (session_on mssql) eq_refl).
Defined.

(** * Properties of [ValidJson] *)

(** C9 (as stated, refuted): [json] turns down the empty text, yet the
    validator accepts a field whose text is empty, since it only looks at
    data that is truthy.  No decoder that rejects the empty text makes the
    validator raise exactly on the texts that do not parse. *)
Lemma ValidJson_accepts_empty_text :
  ~ (exists decode : string -> option exn,
        decode "" <> None
        /\ forall str_format self field text,
             data field = PStr text ->
             ((exists m, ValidJson_call decode str_format self field
                         = Raised (Exn ValidationError m))
              <-> decode text <> None))
  /\ ValidJson_call sample_decode sample_format {| message := None |} (field_with "")
     = Returned tt.
Proof.
  split; [|reflexivity].
  intros (decode & Hempty & claim).
  destruct (proj2 (claim sample_format {| message := None |} (field_with "") ""
                     eq_refl) Hempty) as [m Hraised].
  discriminate Hraised.
Qed.

(** C9 (amended): on a field with text, the validator raises nothing
    exactly when the text is empty or parses as JSON; on a text that is
    not empty and that the decoder turns down with a [JSONDecodeError], it
    raises a [ValidationError] with the formatted message. *)
Theorem ValidJson_accepts_empty_or_parseable
    (decode : string -> option exn) (str_format : string -> pyval -> exn + string)
    (self : ValidJson) (field : Field) (text : string) :
  data field = PStr text ->
  (ValidJson_call decode str_format self field = Returned tt
   <-> text = "" \/ decode text = None)
  /\ (forall msg formatted,
        text <> "" ->
        decode text = Some (Exn JSONDecodeError msg) ->
        str_format (message_or_default self (Exn JSONDecodeError msg)) (PStr text)
        = inr formatted ->
        ValidJson_call decode str_format self field
        = Raised (Exn ValidationError (gettext field formatted))).
Proof.
  intros Hdata. unfold ValidJson_call, json_loads, truthy. rewrite Hdata.
  destruct (bool_decide_reflect (text = "")) as [->|Hne]; simpl.
  - split; [split; auto | intros msg formatted Hcontra; contradiction].
  - split.
    + split.
      * destruct (decode text) as [ex|]; [|auto].
        destruct (exn_cls ex); try discriminate;
          destruct (str_format _ _); discriminate.
      * intros [Hempty|Hparsed]; [contradiction|]. rewrite Hparsed. reflexivity.
    + intros msg formatted _ Hdecode Hformat.
      rewrite Hdecode. simpl. rewrite Hformat. reflexivity.
Qed.

(** [{}] is accepted, the empty text is accepted, [nope] is rejected. *)
Lemma ValidJson_accepts_empty_or_parseable_witness :
  ValidJson_call sample_decode sample_format {| message := None |} (field_with "{}")
  = Returned tt
  /\ ValidJson_call sample_decode sample_format {| message := None |} (field_with "")
     = Returned tt
  /\ ValidJson_call sample_decode sample_format {| message := None |} (field_with "nope")
     = Raised (Exn ValidationError
                 "JSON Validation Error: Expecting value: line 1 column 1 (char 0)").
Proof.
  split; [|split].
  - apply (proj1 (ValidJson_accepts_empty_or_parseable sample_decode sample_format
                    {| message := None |} (field_with "{}") "{}" eq_refl)).
    right. reflexivity.
  - apply (proj1 (ValidJson_accepts_empty_or_parseable sample_decode sample_format
                    {| message := None |} (field_with "") "" eq_refl)).
    left. reflexivity.
  - apply (proj2 (ValidJson_accepts_empty_or_parseable sample_decode sample_format
                    {| message := None |} (field_with "nope") "nope" eq_refl)
             "Expecting value: line 1 column 1 (char 0)"
             "JSON Validation Error: Expecting value: line 1 column 1 (char 0)").
    + discriminate.
    + reflexivity.
    + reflexivity.
Defined.

(** * Further properties of [create_session] *)

Ltac own_events := repeat (constructor; [solve [auto]|]); constructor.

(** X1: whatever the block and the session do, the scope opens the
    session first and closes it last, and between the two lie the events
    of the block followed by nothing but the scope's own commit and
    rollback. *)
Theorem create_session_closes_last
    {A} (w : World) (block : SASession -> M A) (h : list event) :
  let s := Session_factory w h in
  exists own,
    trace (create_session block) w h
    = EvSession s :: trace (block s) w (h ++ [EvSession s]) ++ own ++ [EvClose s]
    /\ Forall (fun ev => ev = EvCommit s \/ ev = EvRollback s) own.
Proof.
  intros s. unfold trace. unfold_session. fold s. simpl.
  destruct (block s w (h ++ [EvSession s])) as [t [v|e]]; simpl.
  - destruct (commit_raises w s _) as [c|]; simpl.
    + destruct (is_Exception (exn_cls c)); simpl.
      * exists [EvCommit s; EvRollback s].
        split; [|own_events].
        destruct (rollback_raises w s _); simpl;
          destruct (close_raises w s _); tidy.
      * exists [EvCommit s]. split; [|own_events].
        destruct (close_raises w s _); tidy.
    + exists [EvCommit s]. split; [|own_events].
      destruct (close_raises w s _); tidy.
  - destruct (is_Exception (exn_cls e)); simpl.
    + exists [EvRollback s]. split; [|own_events].
      destruct (rollback_raises w s _); simpl;
        destruct (close_raises w s _); tidy.
    + exists []. split; [|own_events].
      destruct (close_raises w s _); tidy.
Qed.

(** X2: when the block has returned and the commit then fails with an
    [Exception], the session is rolled back and closed, the value of the
    block is lost, and the caller observes the failure of the commit. *)
Theorem create_session_commit_failure
    {A} (w : World) (block : SASession -> M A) (h t : list event) (v : A) (c : exn) :
  let s := Session_factory w h in
  block s w (h ++ [EvSession s]) = (t, Returned v) ->
  commit_raises w s ((h ++ [EvSession s]) ++ t) = Some c ->
  is_Exception (exn_cls c) = true ->
  rollback_raises w s ((h ++ [EvSession s]) ++ t ++ [EvCommit s]) = None ->
  close_raises w s ((h ++ [EvSession s]) ++ t ++ [EvCommit s; EvRollback s]) = None ->
  create_session block w h
  = (EvSession s :: t ++ [EvCommit s; EvRollback s; EvClose s], Raised c).
Proof.
  intros s Hblock Hcommit Hexc Hrollback Hclose.
  unfold_session. fold s. simpl.
  rewrite Hblock. simpl. rewrite Hcommit. simpl. rewrite Hexc. simpl.
  rewrite <- !app_assoc. simpl.
  rewrite <- !app_assoc in Hrollback, Hclose. simpl in Hrollback, Hclose.
  rewrite Hrollback. simpl. rewrite <- !app_assoc. simpl.
  rewrite Hclose. reflexivity.
Qed.

Lemma create_session_commit_failure_witness :
  create_session (add_and_flush (PInt 7)) (failing_commit_world postgresql) []
  = ([EvSession (session_on postgresql);
      EvAdd (session_on postgresql) (PInt 7);
      EvFlush (session_on postgresql);
      EvCommit (session_on postgresql);
      EvRollback (session_on postgresql);
      EvClose (session_on postgresql)],
     Raised (Exn (UserException "IntegrityError") "duplicate key")).
Proof.
  apply (create_session_commit_failure (failing_commit_world postgresql)
           (add_and_flush (PInt 7)) []
           [EvAdd (session_on postgresql) (PInt 7); EvFlush (session_on postgresql)]
           PNone (Exn (UserException "IntegrityError") "duplicate key")
           eq_refl eq_refl eq_refl eq_refl eq_refl).
Defined.

(** X3: a close that fails has the last word: its exception is what the
    caller observes, in place of the value of the block and in place of
    any exception that was on its way. *)
Theorem create_session_close_failure
    {A} (w : World) (block : SASession -> M A) (h : list event) (x : exn) :
  let s := Session_factory w h in
  (forall h', close_raises w s h' = Some x) ->
  result (create_session block) w h = Raised x.
Proof.
  intros s Hclose. unfold result. unfold_session. fold s. simpl.
  destruct (block s w (h ++ [EvSession s])) as [t [v|e]]; simpl.
  - destruct (commit_raises w s _) as [c|]; simpl.
    + destruct (is_Exception (exn_cls c)); simpl;
        [destruct (rollback_raises w s _); simpl|];
        rewrite Hclose; reflexivity.
    + rewrite Hclose. reflexivity.
  - destruct (is_Exception (exn_cls e)); simpl;
      [destruct (rollback_raises w s _); simpl|];
      rewrite Hclose; reflexivity.
Qed.

Lemma create_session_close_failure_witness :
  result (create_session (raising (Exn ValueError "bad")))
    (failing_close_world postgresql) []
  = Raised (Exn (UserException "OperationalError") "server closed the connection").
Proof.
  apply (create_session_close_failure (failing_close_world postgresql)
           (raising (Exn ValueError "bad")) []
           (Exn (UserException "OperationalError") "server closed the connection")).
  intros h'. reflexivity.
Defined.

(** * Further properties of [provide_session] *)

Lemma tuple_index_first (x : string) (names : list string) (i : nat) :
  tuple_index x names = Some i <->
  names !! i = Some x /\ forall j, (j < i)%nat -> names !! j <> Some x.
Proof.
  revert i. induction names as [|y rest IH]; intros i; simpl.
  - split; [discriminate | intros [H _]; discriminate H].
  - destruct (decide (y = x)) as [->|Hne].
    + split.
      * intros [= <-]. split; [reflexivity | intros j Hj; lia].
      * intros [Hi Hfirst]. destruct i as [|i]; [reflexivity|].
        exfalso. apply (Hfirst 0%nat); [lia | reflexivity].
    + split.
      * destruct (tuple_index x rest) as [k|] eqn:Hk; simpl; [|discriminate].
        intros [= <-]. destruct (proj1 (IH k) eq_refl) as [Hk1 Hk2].
        split; [exact Hk1|].
        intros [|j] Hj; simpl; [congruence | apply Hk2; lia].
      * intros [Hi Hfirst]. destruct i as [|i]; simpl in Hi; [congruence|].
        rewrite (proj2 (IH i)); [reflexivity|].
        split; [exact Hi|].
        intros j Hj. apply (Hfirst (S j)). lia.
Qed.

(** X4: [find_session_idx] returns [idx] exactly when [session] is the
    name of the parameter at position [idx] and of no parameter before
    it. *)
Theorem find_session_idx_first {R} (func : pyfunc R) (idx : nat) :
  find_session_idx func = inr idx <->
  parameters func !! idx = Some "session"
  /\ forall j, (j < idx)%nat -> parameters func !! j <> Some "session".
Proof.
  rewrite <- tuple_index_first. unfold find_session_idx.
  destruct (tuple_index "session" (parameters func)); split; congruence.
Qed.

(** X5: the wrapper carries the name and the signature of the function
    it wraps, so it can be decorated again; a call through two layers of
    the decorator is the call through one, and opens one session at
    most. *)
Theorem provide_session_twice {R} (func wrapped : pyfunc R) :
  provide_session func = inr wrapped ->
  exists twice,
    provide_session wrapped = inr twice
    /\ forall args kwargs w h,
         call twice args kwargs w h = call wrapped args kwargs w h.
Proof.
  intros Hdec.
  destruct (provide_session_inr _ _ Hdec) as (idx & Hidx & Hcall & _ & Hparams).
  assert (Hidx' : find_session_idx wrapped = inr idx).
  { unfold find_session_idx in *. rewrite Hparams.
    destruct (tuple_index "session" (parameters func)); congruence. }
  unfold provide_session. rewrite Hidx'.
  eexists. split; [reflexivity|].
  intros args kwargs w h. simpl.
  unfold wrapper at 1.
  destruct (bool_decide (is_Some (kwargs !! "session")) || (idx <? length args)%nat)
    eqn:Hsupplied.
  - reflexivity.
  - unfold_session. simpl. rewrite Hcall.
    unfold wrapper. rewrite Hsupplied.
    rewrite bool_decide_eq_true_2
      by (rewrite lookup_insert_eq; eexists; reflexivity).
    reflexivity.
Qed.

(** [save(7)] through two layers of the decorator. *)
Lemma provide_session_twice_witness :
  exists twice,
    provide_session (decorated save) = inr twice
    /\ call twice [PInt 7] ∅ (quiet_world postgresql) []
       = ([EvSession (session_on postgresql);
           EvAdd (session_on postgresql) (PInt 7);
           EvCommit (session_on postgresql);
           EvClose (session_on postgresql)],
          Returned PNone).
Proof.
  destruct (provide_session_twice save (decorated save) eq_refl)
    as (twice & Htwice & Hsame).
  exists twice. split; [exact Htwice|].
  rewrite Hsame. reflexivity.
Defined.

(** * Further properties of [create_global_lock] *)

(** X6: the version test of the mysql branch, on a version with a major
    and a minor number: it holds from 5.6 on, whatever follows the minor
    number; a version of one number passes only above 5. *)
Theorem mysql_version_test (major minor : Z) (rest : list Z) :
  (tuple_ge (major :: minor :: rest) [5; 6]%Z = true
   <-> (5 < major \/ (major = 5 /\ 6 <= minor))%Z)
  /\ (tuple_ge [major] [5; 6]%Z = true <-> (5 < major)%Z).
Proof.
  simpl. split.
  - destruct (decide (major = 5%Z)) as [->|Hmajor].
    + destruct (decide (minor = 6%Z)) as [->|Hminor].
      * split; [intros _; right; lia | intros _; destruct rest; reflexivity].
      * rewrite bool_decide_eq_true. lia.
    + rewrite bool_decide_eq_true. lia.
  - destruct (decide (major = 5%Z)) as [->|Hmajor].
    + split; [discriminate | lia].
    + rewrite bool_decide_eq_true. lia.
Qed.

(** X7: on a dialect that is neither postgresql nor mysql (sqlite, mssql,
    oracle) the scope executes no statement: it is the protected block
    and nothing else, so it gives no exclusion. *)
Theorem create_global_lock_other_dialect
    (w : World) (s : SASession) (pg_lock_id lock_name mysql_lock_timeout : pyval)
    (block : M pyval) (h : list event) :
  name (session_dialect s) <> "postgresql" ->
  name (session_dialect s) <> "mysql" ->
  create_global_lock_body (PSession s) pg_lock_id lock_name mysql_lock_timeout block w h
  = block w h.
Proof.
  intros Hpg Hmysql. unfold_lock.
  rewrite !(bool_decide_eq_false_2 _ Hpg), !(bool_decide_eq_false_2 _ Hmysql). simpl.
  destruct (bool_decide (name (session_dialect s) = "mssql")); simpl;
    rewrite ?app_nil_r; destruct (block w h) as [tb rb]; destruct rb; tidy.
Qed.

Lemma create_global_lock_other_dialect_witness :
  create_global_lock_body (PSession (session_on sqlite)) (PInt 1) (PStr "init")
    (PInt 1800) marked_block (quiet_world sqlite) []
  = ([EvOther "block"], Returned PNone).
Proof.
  apply (create_global_lock_other_dialect (quiet_world sqlite) (session_on sqlite)
           (PInt 1) (PStr "init") (PInt 1800) marked_block []); discriminate.
Defined.

(** X8: entered with a session argument that is no session, [None]
    above all, the scope fails on [session.connection()] with an
    [AttributeError]: no statement is executed and the protected block
    does not run. *)
Theorem create_global_lock_without_session
    (w : World) (session pg_lock_id lock_name mysql_lock_timeout : pyval)
    (block : M pyval) (h : list event) :
  (forall s, session <> PSession s) ->
  create_global_lock_body session pg_lock_id lock_name mysql_lock_timeout block w h
  = ([], Raised (Exn AttributeError
                   ("'" +:+ type_name session
                      +:+ "' object has no attribute 'connection'"))).
Proof.
  intros Hno. unfold_lock.
  destruct session as [| | |s]; try reflexivity.
  exfalso. apply (Hno s). reflexivity.
Qed.

(** [with create_global_lock(session=None): ...] *)
Lemma create_global_lock_without_session_witness :
  create_global_lock_body PNone (PInt 1) (PStr "init") (PInt 1800) marked_block
    (quiet_world postgresql) []
  = ([], Raised (Exn AttributeError "'NoneType' object has no attribute 'connection'")).
Proof.
  apply (create_global_lock_without_session (quiet_world postgresql) PNone (PInt 1)
           (PStr "init") (PInt 1800) marked_block []).
  intros s. discriminate.
Defined.

(** X9: on postgresql, when the lock was taken and the release statement
    fails, its exception is what the caller observes, in place of the
    outcome of the protected block, be it a value or an exception. *)
Theorem create_global_lock_release_failure
    (w : World) (s : SASession) (pg_lock_id lock_name mysql_lock_timeout : pyval)
    (block : M pyval) (h : list event) (answer : pyval) (r : exn) :
  name (session_dialect s) = "postgresql" ->
  let acquire := EvExecute s (PG_ADVISORY_LOCK pg_lock_id) in
  execute_result w s (PG_ADVISORY_LOCK pg_lock_id) h = inr answer ->
  execute_result w s (PG_ADVISORY_UNLOCK pg_lock_id)
    (h ++ acquire :: trace block w (h ++ [acquire])) = inl r ->
  result (create_global_lock_body (PSession s) pg_lock_id lock_name
            mysql_lock_timeout block) w h
  = Raised r.
Proof.
  intros Hname acquire Hacquire Hrelease.
  unfold trace in Hrelease.
  unfold_lock. decide_dialect Hname. simpl. fold acquire.
  rewrite ?app_nil_r. rewrite Hacquire. simpl. rewrite ?app_nil_r.
  destruct (block w (h ++ [acquire])) as [tb rb]; simpl in *.
  rewrite ?app_nil_r. rewrite <- ?app_assoc. simpl.
  rewrite Hrelease. simpl. destruct rb; reflexivity.
Qed.

Lemma create_global_lock_release_failure_witness :
  result (create_global_lock_body (PSession (session_on postgresql)) (PInt 1)
            (PStr "init") (PInt 1800) (raise (Exn ValueError "bad")))
    (failing_release_world postgresql) []
  = Raised (Exn (UserException "OperationalError") "server closed the connection").
Proof.
  apply (create_global_lock_release_failure (failing_release_world postgresql)
           (session_on postgresql) (PInt 1) (PStr "init") (PInt 1800)
           (raise (Exn ValueError "bad")) [] (PInt 1)
           (Exn (UserException "OperationalError") "server closed the connection")
           eq_refl eq_refl eq_refl).
Defined.

Lemma create_global_lock_manager_injected (s : SASession) (v : pyval) :
  call create_global_lock_manager []
    (<["session" := PSession s]> {[ "pg_lock_id" := v ]})
  = mret (create_global_lock_body (PSession s) v (PStr "init") (PInt 1800)).
Proof. vm_compute. reflexivity. Qed.

(** X10: [with create_global_lock(pg_lock_id=v): ...], without a session.
    The decorator opens a session around the call that builds the
    manager, so that session has been committed and closed before the
    [with] statement enters the manager: the lock statements and the
    protected block run on the closed session, and nothing commits or
    closes it afterwards. *)
Theorem create_global_lock_provided_session
    (w : World) (v : pyval) (block : M pyval) (h : list event) :
  let s := Session_factory w h in
  commit_raises w s (h ++ [EvSession s]) = None ->
  close_raises w s (h ++ [EvSession s; EvCommit s]) = None ->
  with_call create_global_lock [] {[ "pg_lock_id" := v ]} block w h
  = let scope :=
      create_global_lock_body (PSession s) v (PStr "init") (PInt 1800) block
        w (h ++ [EvSession s; EvCommit s; EvClose s]) in
    (EvSession s :: EvCommit s :: EvClose s :: scope.1, scope.2).
Proof.
  intros s Hcommit Hclose.
  unfold with_call.
  change (call create_global_lock [] {[ "pg_lock_id" := v ]}) with
    (wrapper create_global_lock_manager 0 [] {[ "pg_lock_id" := v ]}).
  rewrite wrapper_missing
    by (reflexivity || (apply lookup_singleton_ne; discriminate)).
  unfold_session. cbv beta zeta. fold s.
  rewrite create_global_lock_manager_injected. unfold_monad. simpl.
  rewrite ?app_nil_r. rewrite Hcommit. simpl.
  rewrite <- ?app_assoc. simpl. rewrite Hclose. simpl.
  rewrite <- ?app_assoc. simpl.
  destruct (create_global_lock_body _ _ _ _ _ _ _) as [t r]. reflexivity.
Qed.

(** [with create_global_lock(pg_lock_id=42): ...] on postgresql. *)
Lemma create_global_lock_provided_session_witness :
  with_call create_global_lock [] {[ "pg_lock_id" := PInt 42 ]} marked_block
    (quiet_world postgresql) []
  = ([EvSession (session_on postgresql);
      EvCommit (session_on postgresql);
      EvClose (session_on postgresql);
      EvExecute (session_on postgresql) "select PG_ADVISORY_LOCK(42);";
      EvOther "block";
      EvExecute (session_on postgresql) "select PG_ADVISORY_UNLOCK(42);"],
     Returned PNone).
Proof.
  apply (create_global_lock_provided_session (quiet_world postgresql) (PInt 42)
           marked_block [] eq_refl eq_refl).
Defined.

Lemma string_length_append (a b : string) :
  String.length (a +:+ b) = (String.length a + String.length b)%nat.
Proof. induction a as [|c a IH]; simpl; [reflexivity | rewrite IH; reflexivity]. Qed.

Lemma string_append_inj_suffix (x y suffix : string) :
  x +:+ suffix = y +:+ suffix -> x = y.
Proof.
  revert y. induction x as [|c x IH]; intros [|d y] Heq; simpl in Heq.
  - reflexivity.
  - apply (f_equal String.length) in Heq. simpl in Heq.
    rewrite !string_length_append in Heq. simpl in Heq. lia.
  - apply (f_equal String.length) in Heq. simpl in Heq.
    rewrite !string_length_append in Heq. simpl in Heq. lia.
  - injection Heq as -> Heq. f_equal. apply IH, Heq.
Qed.

(** X11: two different integer ids never share an advisory-lock
    statement: the acquire statements differ, and so do the release
    statements, so a scope releases the lock it took and no other. *)
Theorem advisory_lock_statements_differ (a b : Z) :
  a <> b ->
  PG_ADVISORY_LOCK (PInt a) <> PG_ADVISORY_LOCK (PInt b)
  /\ PG_ADVISORY_UNLOCK (PInt a) <> PG_ADVISORY_UNLOCK (PInt b).
Proof.
  intros Hne. unfold PG_ADVISORY_LOCK, PG_ADVISORY_UNLOCK, py_format.
  split; intros Heq; apply Hne;
    apply String.app_inj in Heq;
    apply string_append_inj_suffix in Heq;
    apply (inj pretty) in Heq; exact Heq.
Qed.

Lemma advisory_lock_statements_differ_witness :
  PG_ADVISORY_LOCK (PInt 1) <> PG_ADVISORY_LOCK (PInt 10)
  /\ PG_ADVISORY_UNLOCK (PInt 1) <> PG_ADVISORY_UNLOCK (PInt 10).
Proof.
  apply (advisory_lock_statements_differ 1 10). discriminate.
Defined.

(** * Properties of [GreaterEqualThan] and [ValidKey] *)

(** X12: between two fields that hold integers the validator accepts
    exactly when the field is not below the other one; otherwise, with no
    message of its own, it raises a [ValidationError] that names the
    other field by its label. *)
Theorem GreaterEqualThan_integers
    (percent_format : string -> gmap string string -> exn + string)
    (self : GreaterEqualThan) (form : gmap string FormField) (field : Field)
    (other : FormField) (x y : Z) :
  form !! fieldname self = Some other ->
  data field = PInt x ->
  data (form_field other) = PInt y ->
  (GreaterEqualThan_call percent_format self form field = Returned tt
   <-> (y <= x)%Z)
  /\ (message_template self = None ->
      (x < y)%Z ->
      GreaterEqualThan_call percent_format self form field
      = Raised (Exn ValidationError
                  (gettext field
                     ("Field must be greater than or equal to "
                        +:+ other_label self other +:+ ".")))).
Proof.
  intros Hother Hmine Htheirs.
  unfold GreaterEqualThan_call. rewrite Hother, Hmine, Htheirs. simpl.
  destruct (bool_decide_reflect (x < y)%Z) as [Hlt|Hge].
  - split.
    + split; [|lia].
      destruct (message_template self); [destruct (percent_format _ _)|];
        discriminate.
    + intros -> _. reflexivity.
  - split; [split; [lia | reflexivity] | lia].
Qed.

Lemma GreaterEqualThan_integers_witness :
  GreaterEqualThan_call sample_percent_format
    {| fieldname := "start"; message_template := None |}
    (form_with_start (PInt 5)) (number_field 5)
  = Returned tt
  /\ GreaterEqualThan_call sample_percent_format
       {| fieldname := "start"; message_template := None |}
       (form_with_start (PInt 5)) (number_field 4)
     = Raised (Exn ValidationError "Field must be greater than or equal to Start.").
Proof.
  split.
  - apply (proj1 (GreaterEqualThan_integers sample_percent_format
                    {| fieldname := "start"; message_template := None |}
                    (form_with_start (PInt 5)) (number_field 5)
                    {| form_field := {| data := PInt 5; gettext := fun s => s |};
                       label_text := Some "Start" |}
                    5 5 eq_refl eq_refl eq_refl)).
    lia.
  - apply (proj2 (GreaterEqualThan_integers sample_percent_format
                    {| fieldname := "start"; message_template := None |}
                    (form_with_start (PInt 5)) (number_field 4)
                    {| form_field := {| data := PInt 5; gettext := fun s => s |};
                       label_text := Some "Start" |}
                    4 5 eq_refl eq_refl eq_refl)).
    + reflexivity.
    + lia.
Defined.

(** X13: when the form has no field of the configured name, the
    validator raises a [ValidationError] that names the missing field,
    whatever the validated field holds. *)
Theorem GreaterEqualThan_unknown_field
    (percent_format : string -> gmap string string -> exn + string)
    (self : GreaterEqualThan) (form : gmap string FormField) (field : Field) :
  form !! fieldname self = None ->
  GreaterEqualThan_call percent_format self form field
  = Raised (Exn ValidationError
              (gettext field ("Invalid field name '" +:+ fieldname self +:+ "'."))).
Proof.
  intros Hmissing. unfold GreaterEqualThan_call. rewrite Hmissing. reflexivity.
Qed.

Lemma GreaterEqualThan_unknown_field_witness :
  GreaterEqualThan_call sample_percent_format
    {| fieldname := "begin"; message_template := None |}
    (form_with_start (PInt 5)) (number_field 7)
  = Raised (Exn ValidationError "Invalid field name 'begin'.").
Proof.
  apply (GreaterEqualThan_unknown_field sample_percent_format
           {| fieldname := "begin"; message_template := None |}
           (form_with_start (PInt 5)) (number_field 7)).
  reflexivity.
Defined.

(** X14: a field without data is not compared: when either of the two
    fields holds [None] the validator accepts, also where a comparison of
    what the other one holds would have failed. *)
Theorem GreaterEqualThan_None_accepted
    (percent_format : string -> gmap string string -> exn + string)
    (self : GreaterEqualThan) (form : gmap string FormField) (field : Field)
    (other : FormField) :
  form !! fieldname self = Some other ->
  data field = PNone \/ data (form_field other) = PNone ->
  GreaterEqualThan_call percent_format self form field = Returned tt.
Proof.
  intros Hother Hnone. unfold GreaterEqualThan_call. rewrite Hother.
  destruct Hnone as [-> | ->]; [reflexivity|].
  destruct (data field); reflexivity.
Qed.

Lemma GreaterEqualThan_None_accepted_witness :
  GreaterEqualThan_call sample_percent_format
    {| fieldname := "start"; message_template := None |}
    (form_with_start PNone) (number_field 7)
  = Returned tt.
Proof.
  apply (GreaterEqualThan_None_accepted sample_percent_format
           {| fieldname := "start"; message_template := None |}
           (form_with_start PNone) (number_field 7)
           {| form_field := {| data := PNone; gettext := fun s => s |};
              label_text := Some "Start" |}
           eq_refl).
  right. reflexivity.
Defined.

Lemma string_ltb_irrefl (t : string) : String.ltb t t = false.
Proof.
  unfold String.ltb.
  pose proof (String.compare_antisym t t) as H.
  destruct (String.compare t t); try reflexivity; discriminate H.
Qed.

(** X15: the bound itself passes: when the two fields hold the same
    number or the same text, the validator accepts. *)
Theorem GreaterEqualThan_equal_accepted
    (percent_format : string -> gmap string string -> exn + string)
    (self : GreaterEqualThan) (form : gmap string FormField) (field : Field)
    (other : FormField) :
  form !! fieldname self = Some other ->
  data (form_field other) = data field ->
  (exists z, data field = PInt z) \/ (exists t, data field = PStr t) ->
  GreaterEqualThan_call percent_format self form field = Returned tt.
Proof.
  intros Hother Hsame Hkind. unfold GreaterEqualThan_call.
  rewrite Hother, Hsame.
  destruct Hkind as [[z ->] | [t ->]]; simpl.
  - rewrite bool_decide_eq_false_2 by lia. reflexivity.
  - rewrite string_ltb_irrefl. reflexivity.
Qed.

Lemma GreaterEqualThan_equal_accepted_witness :
  GreaterEqualThan_call sample_percent_format
    {| fieldname := "start"; message_template := None |}
    (form_with_start (PStr "2020-01-01")) (field_with "2020-01-01")
  = Returned tt.
Proof.
  apply (GreaterEqualThan_equal_accepted sample_percent_format
           {| fieldname := "start"; message_template := None |}
           (form_with_start (PStr "2020-01-01")) (field_with "2020-01-01")
           {| form_field := {| data := PStr "2020-01-01"; gettext := fun s => s |};
              label_text := Some "Start" |}
           eq_refl eq_refl).
  right. exists "2020-01-01". reflexivity.
Defined.

(** X16: the comparison is not guarded: when the data of the two fields
    cannot be compared, a number with a text for one, the [TypeError] of
    the comparison reaches the caller as it is, not as a
    [ValidationError]. *)
Theorem GreaterEqualThan_comparison_error
    (percent_format : string -> gmap string string -> exn + string)
    (self : GreaterEqualThan) (form : gmap string FormField) (field : Field)
    (other : FormField) (e : exn) :
  form !! fieldname self = Some other ->
  data field <> PNone ->
  data (form_field other) <> PNone ->
  py_lt (data field) (data (form_field other)) = inl e ->
  GreaterEqualThan_call percent_format self form field = Raised e.
Proof.
  intros Hother Hmine Htheirs Hlt. unfold GreaterEqualThan_call. rewrite Hother.
  destruct (data field) eqn:Ef; [contradiction| | |];
    destruct (data (form_field other)) eqn:Eo; try contradiction;
    rewrite Hlt; reflexivity.
Qed.

Lemma GreaterEqualThan_comparison_error_witness :
  GreaterEqualThan_call sample_percent_format
    {| fieldname := "start"; message_template := None |}
    (form_with_start (PStr "2020-01-01")) (number_field 7)
  = Raised (Exn TypeError "'<' not supported between instances of 'int' and 'str'").
Proof.
  apply (GreaterEqualThan_comparison_error sample_percent_format
           {| fieldname := "start"; message_template := None |}
           (form_with_start (PStr "2020-01-01")) (number_field 7)
           {| form_field := {| data := PStr "2020-01-01"; gettext := fun s => s |};
              label_text := Some "Start" |}
           (Exn TypeError "'<' not supported between instances of 'int' and 'str'")
           eq_refl); try discriminate.
  reflexivity.
Defined.

(** X17: [ValidKey] accepts exactly when the field is empty or
    [validate_key] returns; an [Exception] of [validate_key] becomes a
    [ValidationError] with the same text, and an exception that is no
    [Exception] passes through unchanged. *)
Theorem ValidKey_accepts_or_translates
    (validate_key : pyval -> Z -> option exn) (self : ValidKey) (field : Field) :
  (ValidKey_call validate_key self field = Returned tt
   <-> truthy (data field) = false
       \/ validate_key (data field) (max_length self) = None)
  /\ (forall e,
        truthy (data field) = true ->
        validate_key (data field) (max_length self) = Some e ->
        ValidKey_call validate_key self field
        = Raised (if is_Exception (exn_cls e)
                  then Exn ValidationError (exn_msg e)
                  else e)).
Proof.
  unfold ValidKey_call.
  destruct (truthy (data field)).
  - split.
    + split.
      * destruct (validate_key _ _) as [e|]; [|auto].
        destruct (is_Exception (exn_cls e)); discriminate.
      * intros [Hfalse|Hok]; [discriminate | rewrite Hok; reflexivity].
    + intros e _ He. rewrite He.
      destruct (is_Exception (exn_cls e)); reflexivity.
  - split; [split; auto | intros e Hcontra; discriminate].
Qed.

Lemma ValidKey_accepts_or_translates_witness :
  ValidKey_call sample_validate_key {| max_length := 200 |} (field_with "my_key")
  = Returned tt
  /\ ValidKey_call sample_validate_key {| max_length := 3 |} (field_with "my_key")
     = Raised (Exn ValidationError "The key has to be shorter").
Proof.
  split.
  - apply (proj1 (ValidKey_accepts_or_translates sample_validate_key
                    {| max_length := 200 |} (field_with "my_key"))).
    right. reflexivity.
  - apply (proj2 (ValidKey_accepts_or_translates sample_validate_key
                    {| max_length := 3 |} (field_with "my_key"))
             (Exn (UserException "AirflowException") "The key has to be shorter"));
      reflexivity.
Defined.

(** X18: the decoder is only asked about data that is truthy, and only
    its [JSONDecodeError] is turned into a [ValidationError]: any other
    exception it raises reaches the caller unchanged. *)
Theorem ValidJson_other_errors_pass
    (decode : string -> option exn) (str_format : string -> pyval -> exn + string)
    (self : ValidJson) (field : Field) (text : string) (ex : exn) :
  data field = PStr text ->
  text <> "" ->
  decode text = Some ex ->
  exn_cls ex <> JSONDecodeError ->
  ValidJson_call decode str_format self field = Raised ex.
Proof.
  intros Hdata Hne Hdecode Hcls.
  unfold ValidJson_call, json_loads, truthy. rewrite Hdata.
  rewrite bool_decide_eq_false_2 by exact Hne. simpl.
  rewrite Hdecode. destruct (exn_cls ex); try reflexivity. contradiction.
Qed.

Lemma ValidJson_other_errors_pass_witness :
  ValidJson_call exhausted_decode sample_format {| message := None |} (field_with "[[[[")
  = Raised (Exn (UserException "RecursionError")
              "maximum recursion depth exceeded while decoding a JSON array from a unicode string").
Proof.
  apply (ValidJson_other_errors_pass exhausted_decode sample_format
           {| message := None |} (field_with "[[[[") "[[[["
           (Exn (UserException "RecursionError")
              "maximum recursion depth exceeded while decoding a JSON array from a unicode string")
           eq_refl); try discriminate.
  reflexivity.
Defined.
